(** * Multi-GPU examples: [parallelism_tutorial.py]

    A shallow embedding of the tutorial's three code fragments

    - [data_parallel], the hand-written composition of
      [nn.parallel.replicate], [scatter], [parallel_apply] and [gather];
    - [DataParallelModel], whose middle block is wrapped in [nn.DataParallel];
    - [DistributedModel], meant to keep its embedding on the CPU and its
      [rnn] on GPU 0.

    The framework ([torch.nn]) is external to the file.  Its entry points are
    the fields of a record [Framework]: arbitrary stateful, fallible functions
    over an abstract world (device memory, random state, ...).  Every call
    into the framework is recorded in a log together with its outcome, so
    that statements about "which primitive is called, in which order, with
    which arguments" are statements about that log. *)

From stdpp Require Import gmap strings list.
From Stdlib Require Import ZArith Lia.

Local Open Scope Z_scope.

(** ** Python exceptions *)

(** [AttributeError] is what reading a missing attribute of [self] raises;
    [TypeError] is what a call with a keyword argument the callee does not
    take raises, and it names that keyword; everything else the framework
    raises (device unavailable, shape mismatch, out of memory, ...) is a
    [FrameworkError] carrying its message. *)
Inductive Exn : Type :=
| AttributeError (name : string)
| TypeError (keyword : string)
| FrameworkError (msg : string).

#[global] Instance Exn_eq_dec : EqDecision Exn.
Proof. solve_decision. Defined.

(** The outcome of a Python expression: an exception or a value. *)
Definition Res (A : Type) : Type := Exn + A.

Definition raised_of {A : Type} (r : Res A) : option Exn :=
  match r with
  | inl e => Some e
  | inr _ => None
  end.

(** ** Calls into the framework *)

(** Device identifiers and layer sizes are Python integers. *)
Inductive Call (Module Tensor : Type) : Type :=
| CallModule (module : Module) (input : Tensor)
| Replicate (module : Module) (device_ids : list Z)
| Scatter (input : Tensor) (device_ids : list Z)
| ParallelApply (replicas : list Module) (inputs : list Tensor)
| Gather (outputs : list Tensor) (output_device : Z)
| TensorCuda (x : Tensor) (device : Z)
| ModuleCuda (module : Module) (device : Z).

Arguments CallModule {Module Tensor} module input.
Arguments Replicate {Module Tensor} module device_ids.
Arguments Scatter {Module Tensor} input device_ids.
Arguments ParallelApply {Module Tensor} replicas inputs.
Arguments Gather {Module Tensor} outputs output_device.
Arguments TensorCuda {Module Tensor} x device.
Arguments ModuleCuda {Module Tensor} module device.

(** A log entry: the call, and the exception it raised if it raised one. *)
Definition Entry (Module Tensor : Type) : Type :=
  (Call Module Tensor * option Exn)%type.

Definition returned {Module Tensor : Type} (c : Call Module Tensor)
  : Entry Module Tensor := (c, None).

(** Is this entry one of the four [nn.parallel] primitives? *)
Definition is_parallel_primitive {Module Tensor : Type}
    (en : Entry Module Tensor) : bool :=
  match fst en with
  | Replicate _ _ | Scatter _ _ | ParallelApply _ _ | Gather _ _ => true
  | CallModule _ _ | TensorCuda _ _ | ModuleCuda _ _ => false
  end.

(** The framework's entry points used by the file. *)
Record Framework (Module Tensor World : Type) : Type := {
  (* module(input), i.e. nn.Module.__call__ *)
  fw_call : Module -> Tensor -> World -> Res Tensor * World;
  (* nn.parallel.replicate(module, device_ids) *)
  fw_replicate : Module -> list Z -> World -> Res (list Module) * World;
  (* nn.parallel.scatter(input, device_ids) *)
  fw_scatter : Tensor -> list Z -> World -> Res (list Tensor) * World;
  (* nn.parallel.parallel_apply(replicas, inputs) *)
  fw_parallel_apply :
    list Module -> list Tensor -> World -> Res (list Tensor) * World;
  (* nn.parallel.gather(outputs, output_device) *)
  fw_gather : list Tensor -> Z -> World -> Res Tensor * World;
  (* tensor.cuda(device) *)
  fw_tensor_cuda : Tensor -> Z -> World -> Res Tensor * World;
  (* module.cuda(device) *)
  fw_module_cuda : Module -> Z -> World -> Res Module * World
}.

Arguments fw_call {Module Tensor World} _ _ _ _.
Arguments fw_replicate {Module Tensor World} _ _ _ _.
Arguments fw_scatter {Module Tensor World} _ _ _ _.
Arguments fw_parallel_apply {Module Tensor World} _ _ _ _.
Arguments fw_gather {Module Tensor World} _ _ _ _.
Arguments fw_tensor_cuda {Module Tensor World} _ _ _ _.
Arguments fw_module_cuda {Module Tensor World} _ _ _ _.

(** ** The monad of Python code running against a framework *)

Section Py.
Context {Module Tensor World : Type}.

(** The machine state: the framework's world and the log of calls. *)
Definition St : Type := (World * list (Entry Module Tensor))%type.

Definition Py (A : Type) : Type := St -> Res A * St.

Definition ret {A : Type} (a : A) : Py A := fun s => (inr a, s).

Definition raise {A : Type} (e : Exn) : Py A := fun s => (inl e, s).

(** The outcome of a call that touches neither the world nor the log. *)
Definition from_res {A : Type} (r : Res A) : Py A := fun s => (r, s).

(** Sequencing: an exception of the first computation ends the second. *)
Definition bind {A B : Type} (c : Py A) (k : A -> Py B) : Py B :=
  fun s =>
    match c s with
    | (inl e, s') => (inl e, s')
    | (inr a, s') => k a s'
    end.

(** One call into the framework: run it on the world, log it. *)
Definition prim {A : Type} (c : Call Module Tensor)
    (f : World -> Res A * World) : Py A :=
  fun s =>
    match f (fst s) with
    | (r, w') => (r, (w', snd s ++ [(c, raised_of r)]))
    end.

(** Run from a world with an empty log. *)
Definition run {A : Type} (c : Py A) (w : World) : Res A * St := c (w, []).

Definition result {A : Type} (c : Py A) (w : World) : Res A :=
  fst (run c w).

Definition final_world {A : Type} (c : Py A) (w : World) : World :=
  fst (snd (run c w)).

Definition trace {A : Type} (c : Py A) (w : World)
  : list (Entry Module Tensor) := snd (snd (run c w)).

End Py.

Arguments St : clear implicits.
Arguments Py : clear implicits.

Notation "x <- c ;; k" := (bind c (fun x => k))
  (at level 100, c at next level, right associativity).

(** ** [data_parallel] *)

Section DataParallel.
Context {Module Tensor World : Type}.
Variable fw : Framework Module Tensor World.

Definition call (module : Module) (input : Tensor)
  : Py Module Tensor World Tensor :=
  prim (CallModule module input) (fw_call fw module input).

Definition replicate (module : Module) (device_ids : list Z)
  : Py Module Tensor World (list Module) :=
  prim (Replicate module device_ids) (fw_replicate fw module device_ids).

Definition scatter (input : Tensor) (device_ids : list Z)
  : Py Module Tensor World (list Tensor) :=
  prim (Scatter input device_ids) (fw_scatter fw input device_ids).

Definition parallel_apply (replicas : list Module) (inputs : list Tensor)
  : Py Module Tensor World (list Tensor) :=
  prim (ParallelApply replicas inputs) (fw_parallel_apply fw replicas inputs).

Definition gather (outputs : list Tensor) (output_device : Z)
  : Py Module Tensor World Tensor :=
  prim (Gather outputs output_device) (fw_gather fw outputs output_device).

Definition tensor_cuda (x : Tensor) (device : Z)
  : Py Module Tensor World Tensor :=
  prim (TensorCuda x device) (fw_tensor_cuda fw x device).

Definition module_cuda (module : Module) (device : Z)
  : Py Module Tensor World Module :=
  prim (ModuleCuda module device) (fw_module_cuda fw module device).

(** [def data_parallel(module, input, device_ids, output_device=None)].

    [if not device_ids] is the [[]] branch of the match; in the other
    branch [device_ids[0]] is the head [d0].  [replicas[:len(inputs)]] is
    [take (length inputs) replicas]. *)
Definition data_parallel (module : Module) (input : Tensor)
    (device_ids : list Z) (output_device : option Z)
  : Py Module Tensor World Tensor :=
  match device_ids with
  | [] => call module input
  | d0 :: _ =>
      let output_device :=
        match output_device with
        | None => d0
        | Some d => d
        end in
      replicas <- replicate module device_ids ;;
      inputs <- scatter input device_ids ;;
      let replicas := take (length inputs) replicas in
      outputs <- parallel_apply replicas inputs ;;
      gather outputs output_device
  end.

(** The device [gather] is given: [output_device], or [device_ids[0]] when
    it is [None]. *)
Definition default_device (d0 : Z) (output_device : option Z) : Z :=
  match output_device with
  | None => d0
  | Some d => d
  end.

(** "Every replica that [replicate] produced is applied to a shard": every
    element of the list [replicate] returned is in the list of replicas that
    [parallel_apply] is called with. *)
Definition every_replica_applied (module : Module) (input : Tensor)
    (device_ids : list Z) (output_device : option Z) (w : World) : Prop :=
  forall replicas w1 applied inputs outcome,
    fw_replicate fw module device_ids w = (inr replicas, w1) ->
    (ParallelApply applied inputs, outcome)
      ∈ trace (data_parallel module input device_ids output_device) w ->
    forall r, r ∈ replicas -> r ∈ applied.

End DataParallel.

(** ** The two model classes *)

(** Modules as the file builds them: [nn.Linear(i, o)], [nn.Embedding(n, d)]
    and [nn.DataParallel(m)]; [Cuda m device] is a module [m] that lives on
    GPU [device]. *)
Inductive Layer : Type :=
| Linear (in_features out_features : Z)
| Embedding (num_embeddings embedding_dim : Z)
| DataParallel (module : Layer)
| Cuda (module : Layer) (device : Z).

#[global] Instance Layer_eq_dec : EqDecision Layer.
Proof. solve_decision. Defined.

(** Is the layer an [nn.DataParallel] wrapper? *)
Definition is_DataParallel (l : Layer) : bool :=
  match l with
  | DataParallel _ => true
  | _ => false
  end.

(** The sub-modules of an [nn.Module] instance, by attribute name. *)
Definition setattr (self : gmap string Layer) (name : string) (value : Layer)
  : gmap string Layer := <[name := value]> self.

Definition getattr {Tensor World : Type} (self : gmap string Layer)
    (name : string) : Py Layer Tensor World Layer :=
  match self !! name with
  | Some value => ret value
  | None => raise (AttributeError name)
  end.

(** [nn.Module.__init__(self)] takes no keyword argument.  Called with none
    it gives a module without sub-modules; called with some it raises
    [TypeError] for the first of them and registers nothing. *)
Definition nn_Module_init (kwargs : list (string * Layer))
  : Res (gmap string Layer) :=
  match kwargs with
  | [] => inr ∅
  | (keyword, _) :: _ => inl (TypeError keyword)
  end.

Module DataParallelModel.
Section WithFramework.
Context {Tensor World : Type}.
Variable fw : Framework Layer Tensor World.

Definition __init__ : Py Layer Tensor World (gmap string Layer) :=
  self <- from_res (nn_Module_init []) ;;
  let self := setattr self "block1" (Linear 10 20) in
  let self := setattr self "block2" (Linear 20 20) in
  block2 <- getattr self "block2" ;;
  let self := setattr self "block2" (DataParallel block2) in
  let self := setattr self "block3" (Linear 20 20) in
  ret self.

Definition forward (self : gmap string Layer) (x : Tensor)
  : Py Layer Tensor World Tensor :=
  block1 <- getattr self "block1" ;;
  x <- call fw block1 x ;;
  block2 <- getattr self "block2" ;;
  x <- call fw block2 x ;;
  block3 <- getattr self "block3" ;;
  x <- call fw block3 x ;;
  ret x.

End WithFramework.
End DataParallelModel.

Module DistributedModel.
Section WithFramework.
Context {Tensor World : Type}.
Variable fw : Framework Layer Tensor World.

(** The arguments of [super().__init__(embedding=..., rnn=...)] are
    evaluated first, [nn.Linear(10, 10).cuda(0)] among them; then the base
    constructor is called with the two keywords. *)
Definition __init__ : Py Layer Tensor World (gmap string Layer) :=
  let embedding := Embedding 1000 10 in
  rnn <- module_cuda fw (Linear 10 10) 0 ;;
  from_res (nn_Module_init [("embedding"%string, embedding);
                            ("rnn"%string, rnn)]).

Definition forward (self : gmap string Layer) (x : Tensor)
  : Py Layer Tensor World Tensor :=
  embedding <- getattr self "embedding" ;;
  x <- call fw embedding x ;;
  x <- tensor_cuda fw x 0 ;;
  rnn <- getattr self "rnn" ;;
  x <- call fw rnn x ;;
  ret x.

End WithFramework.
End DistributedModel.

(** ** A small concrete framework

    Two GPUs, numbered 0 and 1.  A tensor is a batch of integer rows; the
    world counts the framework calls made so far.  It is used to run the
    code above on concrete inputs. *)

Module Toy.

Definition gpu_count : Z := 2.

Definition valid_device (d : Z) : bool := (0 <=? d) && (d <? gpu_count).

Definition invalid_device : Exn := FrameworkError "invalid device ordinal".

(** What a layer computes on a batch. *)
Fixpoint apply_layer (l : Layer) (x : list Z) : Res (list Z) :=
  match l with
  | Linear _ out_features => inr (map (Z.add out_features) x)
  | Embedding num_embeddings embedding_dim =>
      if forallb (fun v => (0 <=? v) && (v <? num_embeddings)) x
      then inr (map (Z.mul embedding_dim) x)
      else inl (FrameworkError "index out of range")
  | DataParallel m => apply_layer m x
  | Cuda m d => if valid_device d then apply_layer m x else inl invalid_device
  end.

(** [torch.chunk]: consecutive pieces of [size] rows, the last one shorter. *)
Fixpoint chunks (fuel size : nat) (x : list Z) : list (list Z) :=
  match fuel with
  | O => []
  | S fuel' =>
      match x with
      | [] => []
      | _ :: _ => take size x :: chunks fuel' size (drop size x)
      end
  end.

Definition ceil_div (n k : nat) : nat := ((n + k - 1) / k)%nat.

(** Apply replica [i] to shard [i]; the first exception wins. *)
Fixpoint apply_all (replicas : list Layer) (inputs : list (list Z))
  : Res (list (list Z)) :=
  match replicas, inputs with
  | r :: replicas', x :: inputs' =>
      match apply_layer r x with
      | inl e => inl e
      | inr y =>
          match apply_all replicas' inputs' with
          | inl e => inl e
          | inr ys => inr (y :: ys)
          end
      end
  | _, _ => inr []
  end.

Definition framework : Framework Layer (list Z) nat := {|
  fw_call m x w := (apply_layer m x, S w);
  fw_replicate m device_ids w :=
    (if forallb valid_device device_ids
     then inr (map (Cuda m) device_ids)
     else inl invalid_device, S w);
  fw_scatter x device_ids w :=
    (inr (chunks (length x) (ceil_div (length x) (length device_ids)) x),
     S w);
  fw_parallel_apply replicas inputs w :=
    (if (length replicas =? length inputs)%nat
     then apply_all replicas inputs
     else inl (FrameworkError "replicas and inputs differ in length"), S w);
  fw_gather outputs output_device w :=
    (if valid_device output_device
     then inr (concat outputs)
     else inl invalid_device, S w);
  fw_tensor_cuda x d w :=
    (if valid_device d then inr x else inl invalid_device, S w);
  fw_module_cuda m d w :=
    (if valid_device d then inr (Cuda m d) else inl invalid_device, S w)
|}.

End Toy.

(** * Properties *)

(** ** How a run of [data_parallel] unfolds *)

Section DataParallelFacts.
Context {Module Tensor World : Type}.
Variable fw : Framework Module Tensor World.

Lemma run_call (m : Module) (x : Tensor) (w : World) :
  run (call fw m x) w =
  (fst (fw_call fw m x w),
   (snd (fw_call fw m x w),
    [(CallModule m x, raised_of (fst (fw_call fw m x w)))])).
Proof.
  unfold run, call, prim; simpl. now destruct (fw_call fw m x w).
Qed.

(** The run on a non-empty device list, case by case on what the four
    primitives answer. *)
Lemma run_data_parallel_cons (m : Module) (x : Tensor) (d : Z) (ds : list Z)
    (od : option Z) (w : World) :
  run (data_parallel fw m x (d :: ds) od) w =
  match fw_replicate fw m (d :: ds) w with
  | (inl e, w1) => (inl e, (w1, [(Replicate m (d :: ds), Some e)]))
  | (inr rs, w1) =>
      match fw_scatter fw x (d :: ds) w1 with
      | (inl e, w2) =>
          (inl e, (w2, [returned (Replicate m (d :: ds));
                        (Scatter x (d :: ds), Some e)]))
      | (inr xs, w2) =>
          match fw_parallel_apply fw (take (length xs) rs) xs w2 with
          | (inl e, w3) =>
              (inl e, (w3, [returned (Replicate m (d :: ds));
                            returned (Scatter x (d :: ds));
                            (ParallelApply (take (length xs) rs) xs, Some e)]))
          | (inr os, w3) =>
              match fw_gather fw os (default_device d od) w3 with
              | (r, w4) =>
                  (r, (w4, [returned (Replicate m (d :: ds));
                            returned (Scatter x (d :: ds));
                            returned (ParallelApply (take (length xs) rs) xs);
                            (Gather os (default_device d od), raised_of r)]))
              end
          end
      end
  end.
Proof.
  unfold run, data_parallel, bind, replicate, scatter, parallel_apply, gather,
    prim, returned, default_device; simpl.
  destruct (fw_replicate fw m (d :: ds) w) as [[e|rs] w1]; simpl; [done|].
  destruct (fw_scatter fw x (d :: ds) w1) as [[e|xs] w2]; simpl; [done|].
  destruct (fw_parallel_apply fw (take (length xs) rs) xs w2)
    as [[e|os] w3]; simpl; [done|].
  now destruct (fw_gather fw os (default_device d od) w3) as [r w4].
Qed.

(** The log only grows: a run from a log [log] is the run from the empty
    log with [log] in front. *)
Lemma data_parallel_frame (m : Module) (x : Tensor) (ds : list Z)
    (od : option Z) (w : World) (log : list (Entry Module Tensor)) :
  data_parallel fw m x ds od (w, log) =
  (result (data_parallel fw m x ds od) w,
   (final_world (data_parallel fw m x ds od) w,
    log ++ trace (data_parallel fw m x ds od) w)).
Proof.
  unfold result, final_world, trace, run.
  destruct ds as [|d ds]; simpl.
  - unfold call, prim; simpl. now destruct (fw_call fw m x w).
  - unfold bind, replicate, scatter, parallel_apply, gather, prim; simpl.
    destruct (fw_replicate fw m (d :: ds) w) as [[e|rs] w1]; simpl; [done|].
    destruct (fw_scatter fw x (d :: ds) w1) as [[e|xs] w2]; simpl.
    { now rewrite <- app_assoc. }
    destruct (fw_parallel_apply fw (take (length xs) rs) xs w2)
      as [[e|os] w3]; simpl.
    { now rewrite <- !app_assoc. }
    destruct (fw_gather fw os _ w3) as [r w4]; simpl.
    now rewrite <- !app_assoc.
Qed.

End DataParallelFacts.

(** ** Claims about [data_parallel] *)

(** C1.  On a non-empty device list [d :: ds], when [replicate] returns
    [rs], [scatter] returns [xs], [parallel_apply] on the truncated replicas
    returns [os] and [gather] answers [r], the run of [data_parallel] makes
    exactly these four calls, in this order, and its result is [r], the
    answer of [gather] onto the single output device. *)
Theorem data_parallel_sequence {Module Tensor World : Type}
    (fw : Framework Module Tensor World) (m : Module) (x : Tensor)
    (d : Z) (ds : list Z) (od : option Z) (w w1 w2 w3 w4 : World)
    (rs : list Module) (xs os : list Tensor) (r : Res Tensor) :
  fw_replicate fw m (d :: ds) w = (inr rs, w1) ->
  fw_scatter fw x (d :: ds) w1 = (inr xs, w2) ->
  fw_parallel_apply fw (take (length xs) rs) xs w2 = (inr os, w3) ->
  fw_gather fw os (default_device d od) w3 = (r, w4) ->
  run (data_parallel fw m x (d :: ds) od) w =
  (r, (w4, [returned (Replicate m (d :: ds));
            returned (Scatter x (d :: ds));
            returned (ParallelApply (take (length xs) rs) xs);
            (Gather os (default_device d od), raised_of r)])).
Proof.
  intros Hrep Hsc Hpa Hga.
  rewrite run_data_parallel_cons.
  now rewrite Hrep, Hsc, Hpa, Hga.
Qed.

Lemma data_parallel_sequence_witness :
  run (data_parallel Toy.framework (Linear 3 1) [10; 20; 30] [0; 1] None) 0%nat
  = (inr [11; 21; 31],
     (4%nat,
      [returned (Replicate (Linear 3 1) [0; 1]);
       returned (Scatter [10; 20; 30] [0; 1]);
       returned (ParallelApply [Cuda (Linear 3 1) 0; Cuda (Linear 3 1) 1]
                               [[10; 20]; [30]]);
       returned (Gather [[11; 21]; [31]] 0)])).
Proof.
  apply (data_parallel_sequence Toy.framework (Linear 3 1) [10; 20; 30] 0 [1]
           None 0%nat 1%nat 2%nat 3%nat 4%nat
           [Cuda (Linear 3 1) 0; Cuda (Linear 3 1) 1]
           [[10; 20]; [30]] [[11; 21]; [31]] (inr [11; 21; 31]));
    reflexivity.
Defined.

(** C2.  On the empty device list, [data_parallel] is the direct call
    [module(input)]: same result, same final world, and the only call logged
    is that one, so none of the four parallel primitives is called. *)
Theorem data_parallel_empty {Module Tensor World : Type}
    (fw : Framework Module Tensor World) (m : Module) (x : Tensor)
    (od : option Z) (w : World) :
  run (data_parallel fw m x [] od) w = run (call fw m x) w
  /\ result (data_parallel fw m x [] od) w = fst (fw_call fw m x w)
  /\ final_world (data_parallel fw m x [] od) w = snd (fw_call fw m x w)
  /\ trace (data_parallel fw m x [] od) w
     = [(CallModule m x, raised_of (fst (fw_call fw m x w)))]
  /\ Forall (fun en => is_parallel_primitive en = false)
            (trace (data_parallel fw m x [] od) w).
Proof.
  unfold result, final_world, trace.
  change (data_parallel fw m x [] od) with (call fw m x).
  rewrite run_call; simpl.
  repeat split. now repeat constructor.
Qed.

(** Split a membership in an explicit list of entries into its cases. *)
Ltac entry_cases :=
  repeat match goal with
    | H : _ ∈ [] |- _ => apply elem_of_nil in H; contradiction
    | H : _ ∈ _ :: _ |- _ => apply elem_of_cons in H as [H|H]
    end.

(** Unfold a run of [data_parallel] on [d :: ds] along the answers of the
    four primitives. *)
Ltac unfold_run fw :=
  unfold result, final_world, trace in *;
  rewrite ?run_data_parallel_cons in *;
  repeat match goal with
    | H : fw_replicate fw _ _ _ = _ |- _ => rewrite H in *; clear H
    | H : fw_scatter fw _ _ _ = _ |- _ => rewrite H in *; clear H
    | H : fw_parallel_apply fw _ _ _ = _ |- _ => rewrite H in *; clear H
    | H : fw_gather fw _ _ _ = _ |- _ => rewrite H in *; clear H
    end;
  repeat match goal with
    | |- context [fw_replicate fw ?m ?ds ?w] =>
        destruct (fw_replicate fw m ds w) as [[?e|?rs] ?w]
    | |- context [fw_scatter fw ?x ?ds ?w] =>
        destruct (fw_scatter fw x ds w) as [[?e|?xs] ?w]
    | |- context [fw_parallel_apply fw ?rs ?xs ?w] =>
        destruct (fw_parallel_apply fw rs xs w) as [[?e|?os] ?w]
    | |- context [fw_gather fw ?os ?d ?w] =>
        destruct (fw_gather fw os d w) as [?r ?w]
    | H : context [fw_replicate fw ?m ?ds ?w] |- _ =>
        destruct (fw_replicate fw m ds w) as [[?e|?rs] ?w]
    | H : context [fw_scatter fw ?x ?ds ?w] |- _ =>
        destruct (fw_scatter fw x ds w) as [[?e|?xs] ?w]
    | H : context [fw_parallel_apply fw ?rs ?xs ?w] |- _ =>
        destruct (fw_parallel_apply fw rs xs w) as [[?e|?os] ?w]
    | H : context [fw_gather fw ?os ?d ?w] |- _ =>
        destruct (fw_gather fw os d w) as [?r ?w]
    end;
  simpl in *.

(** C3, as stated, fails: with two devices and a batch of one row, [scatter]
    yields one shard, and the replica made for device 1 is not applied. *)
Lemma every_replica_applied_fails :
  ~ every_replica_applied Toy.framework (Linear 3 1) [10] [0; 1] None 0%nat.
Proof.
  intros H.
  specialize (H [Cuda (Linear 3 1) 0; Cuda (Linear 3 1) 1] 1%nat
                [Cuda (Linear 3 1) 0] [[10]] None eq_refl).
  assert (Hin : Cuda (Linear 3 1) 1 ∈ [Cuda (Linear 3 1) 0]).
  { apply H.
    - vm_compute. do 2 apply list_elem_of_further. apply list_elem_of_here.
    - apply list_elem_of_further, list_elem_of_here. }
  entry_cases. discriminate.
Qed.

(** C3, amended.  On a non-empty device list, whatever the primitives
    answer, [replicate] is called exactly once: it is the first call, with
    the module and the whole device list, and no later call is a call of
    [replicate].  When it returns [rs] and [scatter] returns [xs],
    [parallel_apply] is called exactly once, as the third call, with the
    first [length xs] replicas and all the shards [xs]: the replica at
    position [i] is handed over, at position [i], exactly when
    [i < length xs].  The whole list [rs] is handed over exactly when there
    are at least as many shards as replicas, and then every replica is
    applied. *)
Theorem data_parallel_applies_leading_replicas {Module Tensor World : Type}
    (fw : Framework Module Tensor World) (m : Module) (x : Tensor)
    (d : Z) (ds : list Z) (od : option Z) (w : World) :
  (exists rest,
     trace (data_parallel fw m x (d :: ds) od) w
     = (Replicate m (d :: ds),
        raised_of (fst (fw_replicate fw m (d :: ds) w))) :: rest
     /\ forall m' ds' o, (Replicate m' ds', o) ∉ rest)
  /\ forall (rs : list Module) (w1 : World) (xs : list Tensor) (w2 : World),
       fw_replicate fw m (d :: ds) w = (inr rs, w1) ->
       fw_scatter fw x (d :: ds) w1 = (inr xs, w2) ->
       (exists rest,
          trace (data_parallel fw m x (d :: ds) od) w
          = [returned (Replicate m (d :: ds));
             returned (Scatter x (d :: ds));
             (ParallelApply (take (length xs) rs) xs,
              raised_of
                (fst (fw_parallel_apply fw (take (length xs) rs) xs w2)))]
            ++ rest
          /\ forall applied inputs o, (ParallelApply applied inputs, o) ∉ rest)
       /\ (forall i r,
             take (length xs) rs !! i = Some r
             <-> rs !! i = Some r /\ (i < length xs)%nat)
       /\ (take (length xs) rs = rs <-> (length rs <= length xs)%nat)
       /\ ((length rs <= length xs)%nat ->
             every_replica_applied fw m x (d :: ds) od w).
Proof.
  split.
  - unfold trace. rewrite run_data_parallel_cons.
    destruct (fw_replicate fw m (d :: ds) w) as [[e|rs] w1]; simpl.
    { exists []. split; [reflexivity|]. intros m' ds' o Hin. entry_cases. }
    destruct (fw_scatter fw x (d :: ds) w1) as [[e|xs] w2]; simpl.
    { eexists. split; [reflexivity|]. intros m' ds' o Hin.
      entry_cases; discriminate. }
    destruct (fw_parallel_apply fw (take (length xs) rs) xs w2)
      as [[e|os] w3]; simpl.
    { eexists. split; [reflexivity|]. intros m' ds' o Hin.
      unfold returned in *; entry_cases; discriminate. }
    destruct (fw_gather fw os (default_device d od) w3) as [r w4]; simpl.
    eexists. split; [reflexivity|]. intros m' ds' o Hin.
    unfold returned in *; entry_cases; discriminate.
  - intros rs w1 xs w2 Hrep Hsc.
    assert (Htr : exists rest,
               trace (data_parallel fw m x (d :: ds) od) w
               = [returned (Replicate m (d :: ds));
                  returned (Scatter x (d :: ds));
                  (ParallelApply (take (length xs) rs) xs,
                   raised_of
                     (fst (fw_parallel_apply fw (take (length xs) rs) xs
                                             w2)))] ++ rest
               /\ forall applied inputs o,
                    (ParallelApply applied inputs, o) ∉ rest).
    { unfold trace. rewrite run_data_parallel_cons, Hrep, Hsc.
      destruct (fw_parallel_apply fw (take (length xs) rs) xs w2)
        as [[e|os] w3]; simpl.
      { exists []. split; [reflexivity|]. intros ? ? ? Hin. entry_cases. }
      destruct (fw_gather fw os (default_device d od) w3) as [r w4]; simpl.
      eexists. split; [reflexivity|]. intros ? ? ? Hin.
      entry_cases; discriminate. }
    assert (Hwhole : take (length xs) rs = rs <-> (length rs <= length xs)%nat).
    { split.
      - intros Heq. apply (f_equal length) in Heq.
        rewrite length_take in Heq. lia.
      - apply take_ge. }
    split; [exact Htr|]. split; [|split; [exact Hwhole|]].
    + intros i r. apply lookup_take_Some.
    + intros Hle rs' w1' applied inputs o Hrep' Hin r Hr.
      rewrite Hrep in Hrep'. simplify_eq.
      destruct Htr as (rest & Htr & Hrest). rewrite Htr in Hin.
      apply elem_of_app in Hin as [Hin|Hin];
        [|exfalso; exact (Hrest _ _ _ Hin)].
      unfold returned in Hin. entry_cases; simplify_eq.
      now rewrite (proj2 Hwhole Hle).
Qed.

Lemma data_parallel_applies_leading_replicas_witness :
  exists rest,
    trace (data_parallel Toy.framework (Linear 3 1) [10] [0; 1] None) 0%nat
    = [returned (Replicate (Linear 3 1) [0; 1]);
       returned (Scatter [10] [0; 1]);
       (ParallelApply
          (take (length [[10]]) [Cuda (Linear 3 1) 0; Cuda (Linear 3 1) 1])
          [[10]],
        raised_of
          (fst (fw_parallel_apply Toy.framework
                  (take (length [[10]])
                        [Cuda (Linear 3 1) 0; Cuda (Linear 3 1) 1])
                  [[10]] 2%nat)))] ++ rest
    /\ forall applied inputs o, (ParallelApply applied inputs, o) ∉ rest.
Proof.
  exact (proj1
    (proj2 (data_parallel_applies_leading_replicas Toy.framework
              (Linear 3 1) [10] 0 [1] None 0%nat)
       [Cuda (Linear 3 1) 0; Cuda (Linear 3 1) 1] 1%nat [[10]] 2%nat
       eq_refl eq_refl)).
Defined.

(** C4.  Whatever the device list, if some call made by [data_parallel]
    (one of the four primitives, or the direct module call) raises [e], then
    [data_parallel] raises that same [e], and the failing call is the last
    one it makes: nothing is caught, replaced or retried. *)
Theorem data_parallel_propagates {Module Tensor World : Type}
    (fw : Framework Module Tensor World) (m : Module) (x : Tensor)
    (ds : list Z) (od : option Z) (w : World)
    (c : Call Module Tensor) (e : Exn) :
  (c, Some e) ∈ trace (data_parallel fw m x ds od) w ->
  result (data_parallel fw m x ds od) w = inl e
  /\ last (trace (data_parallel fw m x ds od) w) = Some (c, Some e).
Proof.
  intros Hin. destruct ds as [|d ds].
  - unfold result, trace in *.
    change (data_parallel fw m x [] od) with (call fw m x) in *.
    rewrite run_call in *; simpl in *.
    entry_cases. simplify_eq.
    destruct (fw_call fw m x w) as [[e'|y] w']; simpl in *; simplify_eq.
    split; reflexivity.
  - unfold_run fw; unfold returned in *; entry_cases; simplify_eq;
      try match goal with r : Res Tensor |- _ =>
        destruct r; simpl in *; simplify_eq
      end; split; reflexivity.
Qed.

Lemma data_parallel_propagates_witness :
  result (data_parallel Toy.framework (Linear 3 1) [10; 20] [0; 5] None) 0%nat
  = inl Toy.invalid_device
  /\ last (trace (data_parallel Toy.framework (Linear 3 1) [10; 20] [0; 5]
                                None) 0%nat)
     = Some (Replicate (Linear 3 1) [0; 5], Some Toy.invalid_device).
Proof.
  apply (data_parallel_propagates Toy.framework (Linear 3 1) [10; 20] [0; 5]
           None 0%nat (Replicate (Linear 3 1) [0; 5]) Toy.invalid_device).
  vm_compute. apply list_elem_of_here.
Defined.

(** The converse: [data_parallel] raises nothing of its own.  When it ends in
    an exception, that exception was raised by its last call. *)
Lemma data_parallel_raises_nothing_itself {Module Tensor World : Type}
    (fw : Framework Module Tensor World) (m : Module) (x : Tensor)
    (ds : list Z) (od : option Z) (w : World) (e : Exn) :
  result (data_parallel fw m x ds od) w = inl e ->
  exists c, last (trace (data_parallel fw m x ds od) w) = Some (c, Some e).
Proof.
  intros Hres. destruct ds as [|d ds].
  - unfold result, trace in *.
    change (data_parallel fw m x [] od) with (call fw m x) in *.
    rewrite run_call in *; simpl in *. rewrite Hres. simpl. eauto.
  - unfold_run fw; simplify_eq; simpl; eauto.
Qed.

(** C8.  On a non-empty device list, the first call is [replicate] with the
    caller's module and the caller's device list; every [replicate] and every
    [scatter] call in the run carries exactly that list; and once [replicate]
    has returned, the second call is [scatter] with the caller's input and
    that same list. *)
Theorem data_parallel_passes_device_ids {Module Tensor World : Type}
    (fw : Framework Module Tensor World) (m : Module) (x : Tensor)
    (ds : list Z) (od : option Z) (w : World) :
  ds <> [] ->
  (exists o, trace (data_parallel fw m x ds od) w !! 0%nat
             = Some (Replicate m ds, o))
  /\ (forall m' ds' o,
        (Replicate m' ds', o) ∈ trace (data_parallel fw m x ds od) w ->
        m' = m /\ ds' = ds)
  /\ (forall x' ds' o,
        (Scatter x' ds', o) ∈ trace (data_parallel fw m x ds od) w ->
        x' = x /\ ds' = ds)
  /\ (forall rs w1,
        fw_replicate fw m ds w = (inr rs, w1) ->
        exists o, trace (data_parallel fw m x ds od) w !! 1%nat
                  = Some (Scatter x ds, o)).
Proof.
  intros Hne. destruct ds as [|d ds]; [done|]. clear Hne.
  repeat split.
  - unfold_run fw; unfold returned; eauto.
  - unfold_run fw; unfold returned in *; entry_cases; simplify_eq; done.
  - unfold_run fw; unfold returned in *; entry_cases; simplify_eq; done.
  - unfold_run fw; unfold returned in *; entry_cases; simplify_eq; done.
  - unfold_run fw; unfold returned in *; entry_cases; simplify_eq; done.
  - intros rs w1 Hrep. unfold_run fw; unfold returned; eauto.
Qed.

Lemma data_parallel_passes_device_ids_witness :
  exists o,
    trace (data_parallel Toy.framework (Linear 3 1) [10; 20; 30] [1; 0] None)
          0%nat !! 0%nat
    = Some (Replicate (Linear 3 1) [1; 0], o).
Proof.
  apply (data_parallel_passes_device_ids Toy.framework (Linear 3 1)
           [10; 20; 30] [1; 0] None 0%nat).
  discriminate.
Defined.

(** C9.  With [output_device] left to [None] and a device list [d :: ds],
    once [replicate], [scatter] and [parallel_apply] have returned, the fourth
    call is [gather] onto [d], the first device of the list; no [gather] in
    the run goes anywhere else; and the run is the one obtained by passing
    [d] as the output device. *)
Theorem data_parallel_default_output_device {Module Tensor World : Type}
    (fw : Framework Module Tensor World) (m : Module) (x : Tensor)
    (d : Z) (ds : list Z) (w w1 w2 w3 : World)
    (rs : list Module) (xs os : list Tensor) :
  fw_replicate fw m (d :: ds) w = (inr rs, w1) ->
  fw_scatter fw x (d :: ds) w1 = (inr xs, w2) ->
  fw_parallel_apply fw (take (length xs) rs) xs w2 = (inr os, w3) ->
  trace (data_parallel fw m x (d :: ds) None) w !! 3%nat
    = Some (Gather os d, raised_of (fst (fw_gather fw os d w3)))
  /\ result (data_parallel fw m x (d :: ds) None) w
     = fst (fw_gather fw os d w3)
  /\ (forall os' dev o,
        (Gather os' dev, o) ∈ trace (data_parallel fw m x (d :: ds) None) w ->
        dev = d)
  /\ run (data_parallel fw m x (d :: ds) None) w
     = run (data_parallel fw m x (d :: ds) (Some d)) w.
Proof.
  intros Hrep Hsc Hpa.
  assert (Hrun : run (data_parallel fw m x (d :: ds) None) w =
                 (fst (fw_gather fw os d w3),
                  (snd (fw_gather fw os d w3),
                   [returned (Replicate m (d :: ds));
                    returned (Scatter x (d :: ds));
                    returned (ParallelApply (take (length xs) rs) xs);
                    (Gather os d, raised_of (fst (fw_gather fw os d w3)))]))).
  { rewrite run_data_parallel_cons, Hrep, Hsc, Hpa; simpl.
    now destruct (fw_gather fw os d w3). }
  assert (Hsame : run (data_parallel fw m x (d :: ds) None) w
                  = run (data_parallel fw m x (d :: ds) (Some d)) w).
  { now rewrite !run_data_parallel_cons. }
  split; [|split; [|split; [|exact Hsame]]];
    unfold result, trace; rewrite Hrun; simpl; try reflexivity.
  intros os' dev o Hin.
  unfold returned in *; entry_cases; simplify_eq; done.
Qed.

Lemma data_parallel_default_output_device_witness :
  trace (data_parallel Toy.framework (Linear 3 1) [10; 20; 30] [1; 0] None)
        0%nat !! 3%nat
  = Some (Gather [[11; 21]; [31]] 1,
          raised_of (fst (fw_gather Toy.framework [[11; 21]; [31]] 1 3%nat))).
Proof.
  apply (data_parallel_default_output_device Toy.framework (Linear 3 1)
           [10; 20; 30] 1 [0] 0%nat 1%nat 2%nat 3%nat
           [Cuda (Linear 3 1) 1; Cuda (Linear 3 1) 0] [[10; 20]; [30]]
           [[11; 21]; [31]]); reflexivity.
Defined.

(** C10.  On a device list [d :: ds], when [replicate] returns one replica
    per device and [scatter] returns at most one shard per device, the
    replicas handed to [parallel_apply] are the first [length xs] of them, and
    every [parallel_apply] call of the run receives two lists of the same
    length, also when there are fewer shards than devices. *)
Theorem data_parallel_truncates_replicas {Module Tensor World : Type}
    (fw : Framework Module Tensor World) (m : Module) (x : Tensor)
    (d : Z) (ds : list Z) (od : option Z) (w w1 w2 : World)
    (rs : list Module) (xs : list Tensor) :
  fw_replicate fw m (d :: ds) w = (inr rs, w1) ->
  fw_scatter fw x (d :: ds) w1 = (inr xs, w2) ->
  length rs = length (d :: ds) ->
  (length xs <= length (d :: ds))%nat ->
  (exists o,
     trace (data_parallel fw m x (d :: ds) od) w !! 2%nat
     = Some (ParallelApply (take (length xs) rs) xs, o))
  /\ length (take (length xs) rs) = length xs
  /\ (forall rs' xs' o,
        (ParallelApply rs' xs', o)
          ∈ trace (data_parallel fw m x (d :: ds) od) w ->
        rs' = take (length xs) rs /\ xs' = xs /\ length rs' = length xs').
Proof.
  intros Hrep Hsc Hlen Hle.
  assert (Htake : length (take (length xs) rs) = length xs).
  { rewrite length_take. lia. }
  repeat split.
  - unfold_run fw; eauto.
  - exact Htake.
  - unfold_run fw; unfold returned in *; entry_cases; simplify_eq; done.
  - unfold_run fw; unfold returned in *; entry_cases; simplify_eq; done.
  - unfold_run fw; unfold returned in *; entry_cases; simplify_eq; done.
Qed.

Lemma data_parallel_truncates_replicas_witness :
  length (take (length [[10]]) [Cuda (Linear 3 1) 0; Cuda (Linear 3 1) 1])
  = length [[10]].
Proof.
  refine (proj1 (proj2
    (data_parallel_truncates_replicas Toy.framework (Linear 3 1) [10] 0 [1]
       None 0%nat 1%nat 2%nat
       [Cuda (Linear 3 1) 0; Cuda (Linear 3 1) 1] [[10]]
       eq_refl eq_refl eq_refl _))).
  simpl. lia.
Defined.

(** ** The two model classes *)

Lemma getattr_run {Tensor World : Type} (self : gmap string Layer)
    (name : string) (l : Layer) (s : St Layer Tensor World) :
  self !! name = Some l ->
  getattr self name s = (inr l, s).
Proof. intros H. unfold getattr. now rewrite H. Qed.

Lemma prim_run {Module Tensor World A : Type} (c : Call Module Tensor)
    (f : World -> Res A * World) (w w' : World)
    (log : list (Entry Module Tensor)) (r : Res A) :
  f w = (r, w') ->
  prim c f (w, log) = (r, (w', log ++ [(c, raised_of r)])).
Proof. intros H. unfold prim; simpl. now rewrite H. Qed.

(** [forward] of a [DataParallelModel] whose three blocks are [b1], [b2] and
    [b3]: three calls, each on the output of the one before. *)
Lemma DataParallelModel_forward_run {Tensor World : Type}
    (fw : Framework Layer Tensor World) (self : gmap string Layer)
    (b1 b2 b3 : Layer) (x x1 x2 : Tensor) (r : Res Tensor)
    (w w1 w2 w3 : World) :
  self !! "block1" = Some b1 ->
  self !! "block2" = Some b2 ->
  self !! "block3" = Some b3 ->
  fw_call fw b1 x w = (inr x1, w1) ->
  fw_call fw b2 x1 w1 = (inr x2, w2) ->
  fw_call fw b3 x2 w2 = (r, w3) ->
  run (DataParallelModel.forward fw self x) w =
  (r, (w3, [returned (CallModule b1 x); returned (CallModule b2 x1);
            (CallModule b3 x2, raised_of r)])).
Proof.
  intros Hb1 Hb2 Hb3 Hc1 Hc2 Hc3.
  unfold run, DataParallelModel.forward, bind, call.
  rewrite (getattr_run _ _ _ _ Hb1), (prim_run _ _ _ _ _ _ Hc1).
  rewrite (getattr_run _ _ _ _ Hb2), (prim_run _ _ _ _ _ _ Hc2).
  rewrite (getattr_run _ _ _ _ Hb3), (prim_run _ _ _ _ _ _ Hc3).
  now destruct r.
Qed.

(** C6.  Constructing a [DataParallelModel] touches nothing in the framework
    and yields exactly three sub-modules: [block1] and [block3] are plain
    linear layers and [block2], and only [block2], is an [nn.DataParallel]
    wrapper (around a linear layer).  On that model, when [block1] maps [x]
    to [x1], [block2] maps [x1] to [x2] and [block3] answers [r] on [x2],
    [forward] makes these three calls in this order and returns [r], that is
    block3(block2(block1(x))). *)
Theorem DataParallelModel_forward_composes {Tensor World : Type}
    (fw : Framework Layer Tensor World) (x x1 x2 : Tensor) (r : Res Tensor)
    (w0 w w1 w2 w3 : World) :
  fw_call fw (Linear 10 20) x w = (inr x1, w1) ->
  fw_call fw (DataParallel (Linear 20 20)) x1 w1 = (inr x2, w2) ->
  fw_call fw (Linear 20 20) x2 w2 = (r, w3) ->
  exists self : gmap string Layer,
    run (DataParallelModel.__init__ (Tensor := Tensor)) w0
      = (inr self, (w0, []))
    /\ self !! "block1" = Some (Linear 10 20)
    /\ self !! "block2" = Some (DataParallel (Linear 20 20))
    /\ self !! "block3" = Some (Linear 20 20)
    /\ (forall name l, self !! name = Some l ->
          (is_DataParallel l = true <-> name = "block2"%string))
    /\ run (DataParallelModel.forward fw self x) w
       = (r, (w3, [returned (CallModule (Linear 10 20) x);
                   returned (CallModule (DataParallel (Linear 20 20)) x1);
                   (CallModule (Linear 20 20) x2, raised_of r)])).
Proof.
  intros Hc1 Hc2 Hc3.
  exists (<["block3" := Linear 20 20]>
            (<["block2" := DataParallel (Linear 20 20)]>
               (<["block2" := Linear 20 20]>
                  (<["block1" := Linear 10 20]> ∅)))).
  split; [reflexivity|].
  split; [reflexivity|].
  split; [reflexivity|].
  split; [reflexivity|].
  split.
  - intros name l Hl.
    destruct (decide (name = "block3"%string)) as [->|Hn3].
    { rewrite lookup_insert_eq in Hl. simplify_eq. simpl. split; done. }
    rewrite lookup_insert_ne in Hl by done.
    destruct (decide (name = "block2"%string)) as [->|Hn2].
    { rewrite lookup_insert_eq in Hl. simplify_eq. simpl. split; done. }
    rewrite !lookup_insert_ne in Hl by done.
    destruct (decide (name = "block1"%string)) as [->|Hn1].
    { rewrite lookup_insert_eq in Hl. simplify_eq. simpl. split; done. }
    rewrite lookup_insert_ne, lookup_empty in Hl by done. done.
  - apply (DataParallelModel_forward_run fw _ _ _ _ x x1 x2 r w w1 w2 w3);
      [reflexivity | reflexivity | reflexivity | assumption ..].
Qed.

Lemma DataParallelModel_forward_composes_witness :
  exists self : gmap string Layer,
    run (DataParallelModel.__init__ (Tensor := list Z)) 7%nat
      = (inr self, (7%nat, []))
    /\ self !! "block1" = Some (Linear 10 20)
    /\ self !! "block2" = Some (DataParallel (Linear 20 20))
    /\ self !! "block3" = Some (Linear 20 20)
    /\ (forall name l, self !! name = Some l ->
          (is_DataParallel l = true <-> name = "block2"%string))
    /\ run (DataParallelModel.forward Toy.framework self [1; 2]) 0%nat
       = (inr [61; 62],
          (3%nat,
           [returned (CallModule (Linear 10 20) [1; 2]);
            returned (CallModule (DataParallel (Linear 20 20)) [21; 22]);
            returned (CallModule (Linear 20 20) [41; 42])])).
Proof.
  apply (DataParallelModel_forward_composes Toy.framework [1; 2] [21; 22]
           [41; 42] (inr [61; 62]) 7%nat 0%nat 1%nat 2%nat 3%nat);
    reflexivity.
Defined.

(** C7.  The constructor the forward pass depends on never returns.  For
    every framework and every world, [DistributedModel.__init__] raises:
    either [nn.Linear(10, 10).cuda(0)] raises, or the base constructor
    rejects the keyword [embedding] with [TypeError].  So no model exists
    whose [rnn] was placed on GPU 0 at construction, and constructing one and
    calling [forward] raises before [forward] makes any call: neither the
    embedding, nor the transfer, nor the [rnn] runs. *)
Theorem DistributedModel_construction_raises {Tensor World : Type}
    (fw : Framework Layer Tensor World) (w : World) :
  result (DistributedModel.__init__ fw) w
  = match fst (fw_module_cuda fw (Linear 10 10) 0 w) with
    | inl e => inl e
    | inr _ => inl (TypeError "embedding")
    end
  /\ forall x : Tensor,
       result (self <- DistributedModel.__init__ fw ;;
               DistributedModel.forward fw self x) w
       = match fst (fw_module_cuda fw (Linear 10 10) 0 w) with
         | inl e => inl e
         | inr _ => inl (TypeError "embedding")
         end
       /\ trace (self <- DistributedModel.__init__ fw ;;
                 DistributedModel.forward fw self x) w
          = [(ModuleCuda (Linear 10 10) 0,
              raised_of (fst (fw_module_cuda fw (Linear 10 10) 0 w)))].
Proof.
  unfold result, trace, run, DistributedModel.__init__, bind, module_cuda,
    prim, from_res; simpl.
  destruct (fw_module_cuda fw (Linear 10 10) 0 w) as [[e|rnn] w1]; simpl;
    repeat split.
Qed.

(** With two GPUs at hand, so that [.cuda(0)] succeeds, construction ends in
    the [TypeError] of the base constructor. *)
Example DistributedModel_construction_raises_TypeError :
  run (self <- DistributedModel.__init__ Toy.framework ;;
       DistributedModel.forward Toy.framework self [1; 2]) 0%nat
  = (inl (TypeError "embedding"),
     (1%nat, [returned (ModuleCuda (Linear 10 10) 0)])).
Proof. reflexivity. Qed.

(** * Further properties *)

(** ** [data_parallel]: what the claims leave open *)

(** An [output_device] given by the caller is the device [gather] is called
    with, whether or not it is one of [device_ids]; the head of the list then
    plays no part in the choice. *)
Theorem data_parallel_explicit_output_device {Module Tensor World : Type}
    (fw : Framework Module Tensor World) (m : Module) (x : Tensor)
    (d dev : Z) (ds : list Z) (w w1 w2 w3 : World)
    (rs : list Module) (xs os : list Tensor) :
  fw_replicate fw m (d :: ds) w = (inr rs, w1) ->
  fw_scatter fw x (d :: ds) w1 = (inr xs, w2) ->
  fw_parallel_apply fw (take (length xs) rs) xs w2 = (inr os, w3) ->
  trace (data_parallel fw m x (d :: ds) (Some dev)) w !! 3%nat
    = Some (Gather os dev, raised_of (fst (fw_gather fw os dev w3)))
  /\ result (data_parallel fw m x (d :: ds) (Some dev)) w
     = fst (fw_gather fw os dev w3)
  /\ (forall os' dev' o,
        (Gather os' dev', o)
          ∈ trace (data_parallel fw m x (d :: ds) (Some dev)) w ->
        dev' = dev).
Proof.
  intros Hrep Hsc Hpa.
  assert (Hrun : run (data_parallel fw m x (d :: ds) (Some dev)) w =
                 (fst (fw_gather fw os dev w3),
                  (snd (fw_gather fw os dev w3),
                   [returned (Replicate m (d :: ds));
                    returned (Scatter x (d :: ds));
                    returned (ParallelApply (take (length xs) rs) xs);
                    (Gather os dev,
                     raised_of (fst (fw_gather fw os dev w3)))]))).
  { rewrite run_data_parallel_cons, Hrep, Hsc, Hpa; simpl.
    now destruct (fw_gather fw os dev w3). }
  unfold result, trace. rewrite Hrun; simpl.
  split; [reflexivity|]. split; [reflexivity|].
  intros os' dev' o Hin.
  unfold returned in *; entry_cases; simplify_eq; done.
Qed.

Lemma data_parallel_explicit_output_device_witness :
  trace (data_parallel Toy.framework (Linear 3 1) [10; 20] [0] (Some 1))
        0%nat !! 3%nat
  = Some (Gather [[11; 21]] 1,
          raised_of (fst (fw_gather Toy.framework [[11; 21]] 1 3%nat))).
Proof.
  apply (data_parallel_explicit_output_device Toy.framework (Linear 3 1)
           [10; 20] 0 1 [] 0%nat 1%nat 2%nat 3%nat
           [Cuda (Linear 3 1) 0] [[10; 20]] [[11; 21]]); reflexivity.
Defined.

(** On a non-empty device list the module itself is never called by
    [data_parallel], nor is any tensor moved by it: every call it makes is one
    of the four parallel primitives, and it makes between one and four. *)
Theorem data_parallel_only_parallel_primitives {Module Tensor World : Type}
    (fw : Framework Module Tensor World) (m : Module) (x : Tensor)
    (ds : list Z) (od : option Z) (w : World) :
  ds <> [] ->
  Forall (fun en => is_parallel_primitive en = true)
         (trace (data_parallel fw m x ds od) w)
  /\ (1 <= length (trace (data_parallel fw m x ds od) w) <= 4)%nat.
Proof.
  intros Hne. destruct ds as [|d ds]; [done|]. clear Hne.
  split; unfold_run fw; unfold returned;
    repeat constructor; simpl; lia.
Qed.

Lemma data_parallel_only_parallel_primitives_witness :
  Forall (fun en => is_parallel_primitive en = true)
         (trace (data_parallel Toy.framework (Linear 3 1) [10; 20] [0; 5]
                               None) 0%nat)
  /\ Nat.le 1 (length (trace (data_parallel Toy.framework (Linear 3 1)
                                             [10; 20] [0; 5] None) 0%nat))
  /\ Nat.le (length (trace (data_parallel Toy.framework (Linear 3 1)
                                           [10; 20] [0; 5] None) 0%nat)) 4.
Proof.
  apply (data_parallel_only_parallel_primitives Toy.framework (Linear 3 1)
           [10; 20] [0; 5] None 0%nat).
  discriminate.
Defined.

(** A value comes out of [data_parallel] on a non-empty device list only
    after all four primitives were called and all four returned: the value is
    the one [gather] returned, and the log is the full sequence with no
    exception in it. *)
Theorem data_parallel_returns_only_after_gather {Module Tensor World : Type}
    (fw : Framework Module Tensor World) (m : Module) (x y : Tensor)
    (d : Z) (ds : list Z) (od : option Z) (w : World) :
  result (data_parallel fw m x (d :: ds) od) w = inr y ->
  exists rs xs os w1 w2 w3 w4,
    fw_replicate fw m (d :: ds) w = (inr rs, w1)
    /\ fw_scatter fw x (d :: ds) w1 = (inr xs, w2)
    /\ fw_parallel_apply fw (take (length xs) rs) xs w2 = (inr os, w3)
    /\ fw_gather fw os (default_device d od) w3 = (inr y, w4)
    /\ final_world (data_parallel fw m x (d :: ds) od) w = w4
    /\ trace (data_parallel fw m x (d :: ds) od) w
       = [returned (Replicate m (d :: ds));
          returned (Scatter x (d :: ds));
          returned (ParallelApply (take (length xs) rs) xs);
          returned (Gather os (default_device d od))].
Proof.
  unfold result, final_world, trace. rewrite run_data_parallel_cons.
  destruct (fw_replicate fw m (d :: ds) w) as [[e|rs] w1] eqn:Hrep;
    [simpl; intros; discriminate|].
  destruct (fw_scatter fw x (d :: ds) w1) as [[e|xs] w2] eqn:Hsc;
    [simpl; intros; discriminate|].
  destruct (fw_parallel_apply fw (take (length xs) rs) xs w2)
    as [[e|os] w3] eqn:Hpa; [simpl; intros; discriminate|].
  destruct (fw_gather fw os (default_device d od) w3) as [r w4] eqn:Hga.
  simpl. intros ->. exists rs, xs, os, w1, w2, w3, w4.
  repeat split; first [assumption | reflexivity].
Qed.

Lemma data_parallel_returns_only_after_gather_witness :
  exists rs xs os w1 w2 w3 w4,
    fw_replicate Toy.framework (Linear 3 1) [0; 1] 0%nat = (inr rs, w1)
    /\ fw_scatter Toy.framework [10; 20; 30] [0; 1] w1 = (inr xs, w2)
    /\ fw_parallel_apply Toy.framework (take (length xs) rs) xs w2
       = (inr os, w3)
    /\ fw_gather Toy.framework os (default_device 0 None) w3
       = (inr [11; 21; 31], w4)
    /\ final_world (data_parallel Toy.framework (Linear 3 1) [10; 20; 30]
                                  [0; 1] None) 0%nat = w4
    /\ trace (data_parallel Toy.framework (Linear 3 1) [10; 20; 30] [0; 1]
                            None) 0%nat
       = [returned (Replicate (Linear 3 1) [0; 1]);
          returned (Scatter [10; 20; 30] [0; 1]);
          returned (ParallelApply (take (length xs) rs) xs);
          returned (Gather os (default_device 0 None))].
Proof.
  apply (data_parallel_returns_only_after_gather Toy.framework (Linear 3 1)
           [10; 20; 30] [11; 21; 31] 0 [1] None 0%nat).
  reflexivity.
Defined.

(** An exception out of [data_parallel] is always one that its last call
    raised: reading [device_ids[0]] and slicing the replicas raise nothing. *)
Theorem data_parallel_exception_origin {Module Tensor World : Type}
    (fw : Framework Module Tensor World) (m : Module) (x : Tensor)
    (ds : list Z) (od : option Z) (w : World) (e : Exn) :
  result (data_parallel fw m x ds od) w = inl e ->
  exists c, last (trace (data_parallel fw m x ds od) w) = Some (c, Some e).
Proof.
  intros Hres. destruct ds as [|d ds].
  - unfold result, trace in *.
    change (data_parallel fw m x [] od) with (call fw m x) in *.
    rewrite run_call in *; simpl in *. rewrite Hres. simpl. eauto.
  - unfold_run fw; simplify_eq; simpl; eauto.
Qed.

Lemma data_parallel_exception_origin_witness :
  exists c,
    last (trace (data_parallel Toy.framework (Linear 3 1) [10; 20] [0; 1]
                               (Some 7)) 0%nat)
    = Some (c, Some Toy.invalid_device).
Proof.
  apply (data_parallel_exception_origin Toy.framework (Linear 3 1) [10; 20]
           [0; 1] (Some 7) 0%nat Toy.invalid_device).
  reflexivity.
Defined.

(** The slice [replicas[:len(inputs)]] only ever shortens the replicas.  The
    number of replicas handed to [parallel_apply] is the smaller of the number
    of shards and the number of replicas, all the shards are handed over, and
    the two lists have the same length exactly when there are no more shards
    than replicas. *)
Theorem data_parallel_applied_lengths {Module Tensor World : Type}
    (fw : Framework Module Tensor World) (m : Module) (x : Tensor)
    (d : Z) (ds : list Z) (od : option Z) (w w1 w2 : World)
    (rs applied : list Module) (xs inputs : list Tensor) (o : option Exn) :
  fw_replicate fw m (d :: ds) w = (inr rs, w1) ->
  fw_scatter fw x (d :: ds) w1 = (inr xs, w2) ->
  (ParallelApply applied inputs, o)
    ∈ trace (data_parallel fw m x (d :: ds) od) w ->
  inputs = xs
  /\ length applied = Nat.min (length xs) (length rs)
  /\ (length applied = length inputs <-> (length xs <= length rs)%nat).
Proof.
  intros Hrep Hsc Hin.
  assert (Heq : applied = take (length xs) rs /\ inputs = xs).
  { unfold_run fw; unfold returned in *; entry_cases; simplify_eq; done. }
  destruct Heq as [-> ->].
  rewrite length_take. repeat split; lia.
Qed.

Lemma data_parallel_applied_lengths_witness :
  [[10]] = [[10]]
  /\ length [Cuda (Linear 3 1) 0]
     = Nat.min (length [[10]])
               (length [Cuda (Linear 3 1) 0; Cuda (Linear 3 1) 1])
  /\ (length [Cuda (Linear 3 1) 0] = length [[10]] <->
      (length [[10]]
       <= length [Cuda (Linear 3 1) 0; Cuda (Linear 3 1) 1])%nat).
Proof.
  apply (data_parallel_applied_lengths Toy.framework (Linear 3 1) [10] 0 [1]
           None 0%nat 1%nat 2%nat
           [Cuda (Linear 3 1) 0; Cuda (Linear 3 1) 1] [Cuda (Linear 3 1) 0]
           [[10]] [[10]] None eq_refl eq_refl).
  vm_compute. do 2 apply list_elem_of_further. apply list_elem_of_here.
Defined.

(** When [scatter] yields no shard at all, no replica is applied:
    [parallel_apply] is still called, with no replicas and no inputs, and
    [gather] is still called on what it returns. *)
Theorem data_parallel_no_shards {Module Tensor World : Type}
    (fw : Framework Module Tensor World) (m : Module) (x : Tensor)
    (d : Z) (ds : list Z) (od : option Z) (w w1 w2 w3 : World)
    (rs : list Module) (os : list Tensor) :
  fw_replicate fw m (d :: ds) w = (inr rs, w1) ->
  fw_scatter fw x (d :: ds) w1 = (inr [], w2) ->
  fw_parallel_apply fw [] [] w2 = (inr os, w3) ->
  run (data_parallel fw m x (d :: ds) od) w =
  (fst (fw_gather fw os (default_device d od) w3),
   (snd (fw_gather fw os (default_device d od) w3),
    [returned (Replicate m (d :: ds));
     returned (Scatter x (d :: ds));
     returned (ParallelApply [] []);
     (Gather os (default_device d od),
      raised_of (fst (fw_gather fw os (default_device d od) w3)))])).
Proof.
  intros Hrep Hsc Hpa.
  rewrite run_data_parallel_cons, Hrep, Hsc.
  change (take (length (@nil Tensor)) rs) with (@nil Module).
  rewrite Hpa.
  now destruct (fw_gather fw os (default_device d od) w3).
Qed.

Lemma data_parallel_no_shards_witness :
  run (data_parallel Toy.framework (Linear 3 1) [] [0; 1] None) 0%nat =
  (fst (fw_gather Toy.framework [] (default_device 0 None) 3%nat),
   (snd (fw_gather Toy.framework [] (default_device 0 None) 3%nat),
    [returned (Replicate (Linear 3 1) [0; 1]);
     returned (Scatter [] [0; 1]);
     returned (ParallelApply [] []);
     (Gather [] (default_device 0 None),
      raised_of
        (fst (fw_gather Toy.framework [] (default_device 0 None) 3%nat)))])).
Proof.
  apply (data_parallel_no_shards Toy.framework (Linear 3 1) [] 0 [1] None
           0%nat 1%nat 2%nat 3%nat
           [Cuda (Linear 3 1) 0; Cuda (Linear 3 1) 1] []);
    reflexivity.
Defined.

(** ** The [forward] methods: exceptions and missing attributes *)

(** Unfold a run of a [forward] method along the attribute reads and the
    answers of the framework. *)
Ltac unfold_forward :=
  unfold result, final_world, trace, run, DataParallelModel.forward,
    DistributedModel.forward, bind, getattr, call, tensor_cuda, prim, ret,
    raise, returned in *;
  simpl in *;
  repeat (match goal with
          | H : ?self !! ?n = _ |- _ => rewrite H in *; clear H
          | H : fw_call _ _ _ _ = _ |- _ => rewrite H in *; clear H
          | H : fw_tensor_cuda _ _ _ _ = _ |- _ => rewrite H in *; clear H
          | |- context [match ?self !! ?n with _ => _ end] =>
              destruct (self !! n)
          | H : context [match ?self !! ?n with _ => _ end] |- _ =>
              destruct (self !! n)
          | |- context [fw_call ?fw ?b ?x ?w] =>
              destruct (fw_call fw b x w) as [[?e|?y] ?w]
          | H : context [fw_call ?fw ?b ?x ?w] |- _ =>
              destruct (fw_call fw b x w) as [[?e|?y] ?w]
          | |- context [fw_tensor_cuda ?fw ?x ?d ?w] =>
              destruct (fw_tensor_cuda fw x d w) as [[?e|?y] ?w]
          | H : context [fw_tensor_cuda ?fw ?x ?d ?w] |- _ =>
              destruct (fw_tensor_cuda fw x d w) as [[?e|?y] ?w]
          end; simpl in *).

(** Whatever the sub-modules of [self], if a block called by
    [DataParallelModel.forward] raises [e], then [forward] raises that same
    [e] and calls no later block. *)
Theorem DataParallelModel_forward_propagates {Tensor World : Type}
    (fw : Framework Layer Tensor World) (self : gmap string Layer)
    (x : Tensor) (w : World) (c : Call Layer Tensor) (e : Exn) :
  (c, Some e) ∈ trace (DataParallelModel.forward fw self x) w ->
  result (DataParallelModel.forward fw self x) w = inl e
  /\ last (trace (DataParallelModel.forward fw self x) w) = Some (c, Some e).
Proof.
  intros Hin.
  unfold_forward; entry_cases; simplify_eq; split; reflexivity.
Qed.

Lemma DataParallelModel_forward_propagates_witness :
  result (DataParallelModel.forward Toy.framework
            (<["block2" := Cuda (Linear 20 20) 7]>
               (<["block1" := Linear 10 20]> ∅)) [1; 2]) 0%nat
  = inl Toy.invalid_device
  /\ last (trace (DataParallelModel.forward Toy.framework
                    (<["block2" := Cuda (Linear 20 20) 7]>
                       (<["block1" := Linear 10 20]> ∅)) [1; 2]) 0%nat)
     = Some (CallModule (Cuda (Linear 20 20) 7) [21; 22],
             Some Toy.invalid_device).
Proof.
  apply (DataParallelModel_forward_propagates Toy.framework
           (<["block2" := Cuda (Linear 20 20) 7]>
              (<["block1" := Linear 10 20]> ∅)) [1; 2] 0%nat
           (CallModule (Cuda (Linear 20 20) 7) [21; 22])
           Toy.invalid_device).
  vm_compute. apply list_elem_of_further, list_elem_of_here.
Defined.

(** Whatever the sub-modules of [self], if the embedding, the transfer to
    GPU 0 or the [rnn] raises [e] in [DistributedModel.forward], then
    [forward] raises that same [e] and goes no further: after a failed
    embedding nothing is moved to the GPU, after a failed transfer the [rnn]
    is not called. *)
Theorem DistributedModel_forward_propagates {Tensor World : Type}
    (fw : Framework Layer Tensor World) (self : gmap string Layer)
    (x : Tensor) (w : World) (c : Call Layer Tensor) (e : Exn) :
  (c, Some e) ∈ trace (DistributedModel.forward fw self x) w ->
  result (DistributedModel.forward fw self x) w = inl e
  /\ last (trace (DistributedModel.forward fw self x) w) = Some (c, Some e).
Proof.
  intros Hin.
  unfold_forward; entry_cases; simplify_eq; split; reflexivity.
Qed.

Lemma DistributedModel_forward_propagates_witness :
  result (DistributedModel.forward Toy.framework
            (<["rnn" := Cuda (Linear 10 10) 0]>
               (<["embedding" := Embedding 1000 10]> ∅))
            [1; 2000]) 0%nat
  = inl (FrameworkError "index out of range")
  /\ last (trace (DistributedModel.forward Toy.framework
                    (<["rnn" := Cuda (Linear 10 10) 0]>
                       (<["embedding" := Embedding 1000 10]> ∅))
                    [1; 2000]) 0%nat)
     = Some (CallModule (Embedding 1000 10) [1; 2000],
             Some (FrameworkError "index out of range")).
Proof.
  apply (DistributedModel_forward_propagates Toy.framework
           (<["rnn" := Cuda (Linear 10 10) 0]>
              (<["embedding" := Embedding 1000 10]> ∅))
           [1; 2000] 0%nat (CallModule (Embedding 1000 10) [1; 2000])
           (FrameworkError "index out of range")).
  vm_compute. apply list_elem_of_here.
Defined.

(** Attributes are read when they are needed.  On a model that has [block1]
    but lacks [block2], [DataParallelModel.forward] has already run [block1]
    when it raises [AttributeError] for [block2]; [block3] is not called. *)
Theorem DataParallelModel_forward_missing_block2 {Tensor World : Type}
    (fw : Framework Layer Tensor World) (self : gmap string Layer)
    (b1 : Layer) (x x1 : Tensor) (w w1 : World) :
  self !! "block1" = Some b1 ->
  self !! "block2" = None ->
  fw_call fw b1 x w = (inr x1, w1) ->
  run (DataParallelModel.forward fw self x) w
  = (inl (AttributeError "block2"), (w1, [returned (CallModule b1 x)])).
Proof.
  intros Hb1 Hb2 Hc1.
  unfold run, DataParallelModel.forward, bind, call.
  rewrite (getattr_run _ _ _ _ Hb1), (prim_run _ _ _ _ _ _ Hc1).
  unfold getattr. now rewrite Hb2.
Qed.

Lemma DataParallelModel_forward_missing_block2_witness :
  run (DataParallelModel.forward Toy.framework
         (<["block1" := Linear 10 20]> ∅) [1; 2]) 0%nat
  = (inl (AttributeError "block2"),
     (1%nat, [returned (CallModule (Linear 10 20) [1; 2])])).
Proof.
  apply (DataParallelModel_forward_missing_block2 Toy.framework
           (<["block1" := Linear 10 20]> ∅) (Linear 10 20) [1; 2] [21; 22]
           0%nat 1%nat); reflexivity.
Defined.

(** On a model that lacks [rnn], [DistributedModel.forward] has already run
    the embedding and moved its output to GPU 0 when it raises
    [AttributeError] for [rnn]. *)
Theorem DistributedModel_forward_missing_rnn {Tensor World : Type}
    (fw : Framework Layer Tensor World) (self : gmap string Layer)
    (emb : Layer) (x x1 x2 : Tensor) (w w1 w2 : World) :
  self !! "embedding" = Some emb ->
  self !! "rnn" = None ->
  fw_call fw emb x w = (inr x1, w1) ->
  fw_tensor_cuda fw x1 0 w1 = (inr x2, w2) ->
  run (DistributedModel.forward fw self x) w
  = (inl (AttributeError "rnn"),
     (w2, [returned (CallModule emb x); returned (TensorCuda x1 0)])).
Proof.
  intros Hemb Hrnn Hc1 Hc2.
  unfold run, DistributedModel.forward, bind, call, tensor_cuda.
  rewrite (getattr_run _ _ _ _ Hemb), (prim_run _ _ _ _ _ _ Hc1).
  rewrite (prim_run _ _ _ _ _ _ Hc2).
  unfold getattr. now rewrite Hrnn.
Qed.

Lemma DistributedModel_forward_missing_rnn_witness :
  run (DistributedModel.forward Toy.framework
         (<["embedding" := Embedding 1000 10]> ∅) [1; 2]) 0%nat
  = (inl (AttributeError "rnn"),
     (2%nat, [returned (CallModule (Embedding 1000 10) [1; 2]);
              returned (TensorCuda [10; 20] 0)])).
Proof.
  apply (DistributedModel_forward_missing_rnn Toy.framework
           (<["embedding" := Embedding 1000 10]> ∅) (Embedding 1000 10)
           [1; 2] [10; 20] [10; 20] 0%nat 1%nat 2%nat); reflexivity.
Defined.

(** ** [forward] on a model that has its sub-modules *)

(** On any object whose [embedding] and [rnn] are [emb] and [rnn]: when
    [emb] maps [x] to [x1], the transfer of [x1] to GPU 0 gives [x2] and [rnn]
    answers [r] on [x2], [DistributedModel.forward] makes exactly these three
    calls, in this order (the embedding, the transfer to device 0, the [rnn]
    on the transferred tensor) and its result is [r]. *)
Theorem DistributedModel_forward_calls_in_order {Tensor World : Type}
    (fw : Framework Layer Tensor World) (self : gmap string Layer)
    (emb rnn : Layer) (x x1 x2 : Tensor) (r : Res Tensor)
    (w w1 w2 w3 : World) :
  self !! "embedding" = Some emb ->
  self !! "rnn" = Some rnn ->
  fw_call fw emb x w = (inr x1, w1) ->
  fw_tensor_cuda fw x1 0 w1 = (inr x2, w2) ->
  fw_call fw rnn x2 w2 = (r, w3) ->
  run (DistributedModel.forward fw self x) w =
  (r, (w3, [returned (CallModule emb x); returned (TensorCuda x1 0);
            (CallModule rnn x2, raised_of r)])).
Proof.
  intros Hemb Hrnn Hc1 Hc2 Hc3.
  unfold run, DistributedModel.forward, bind, call, tensor_cuda.
  rewrite (getattr_run _ _ _ _ Hemb), (prim_run _ _ _ _ _ _ Hc1).
  rewrite (prim_run _ _ _ _ _ _ Hc2).
  rewrite (getattr_run _ _ _ _ Hrnn), (prim_run _ _ _ _ _ _ Hc3).
  now destruct r.
Qed.

Lemma DistributedModel_forward_calls_in_order_witness :
  run (DistributedModel.forward Toy.framework
         (<["rnn" := Cuda (Linear 10 10) 0]>
            (<["embedding" := Embedding 1000 10]> ∅)) [1; 2]) 0%nat
  = (inr [20; 30],
     (3%nat,
      [returned (CallModule (Embedding 1000 10) [1; 2]);
       returned (TensorCuda [10; 20] 0);
       (CallModule (Cuda (Linear 10 10) 0) [10; 20],
        raised_of (inr [20; 30]))])).
Proof.
  apply (DistributedModel_forward_calls_in_order Toy.framework
           (<["rnn" := Cuda (Linear 10 10) 0]>
              (<["embedding" := Embedding 1000 10]> ∅))
           (Embedding 1000 10) (Cuda (Linear 10 10) 0)
           [1; 2] [10; 20] [10; 20] (inr [20; 30])
           0%nat 1%nat 2%nat 3%nat); reflexivity.
Defined.
